(** * Render-data accessors of [Microsoft::Terminal::Core::Terminal]

    A shallow embedding of [src/cascadia/TerminalCore/terminalrenderdata.cpp]:
    the search-highlight query, the scroll-to-points viewport reconciler, the
    pattern-id lookup, the focused-highlight setter, the two accessors with a
    function-try-block, and the console title getter.

    Conventions.
    - [til::CoordType] is a signed 32-bit integer.  Signed overflow is
      undefined in C++, so coordinates are modelled by [Z] with exact
      arithmetic: the model agrees with the program on every execution the
      language defines.  [sub_in_range] records that on buffer rows (which
      are never negative) the subtraction of the program cannot overflow.
    - [_assertLocked()] is a debug-build assertion without a result; it is
      not part of the model.
    - Types and helpers that are declared in [Terminal.hpp] and the headers
      it includes, and defined in other translation units, are the fields
      of the class [Collaborators]; every statement holds for all of them.
      [example_env] is one instance, used to run the functions on concrete
      terminals. *)

From Stdlib Require Import String ZArith List Bool Lia Permutation Sorted.
From Equations Require Import Equations.
Import ListNotations.

Local Open Scope Z_scope.

(** ** Coordinates, points and rectangles ([til]) *)

Definition CoordType := Z.

Definition CoordType_min : Z := - 2 ^ 31.
Definition CoordType_max : Z := 2 ^ 31 - 1.

Definition representable (v : Z) : Prop := CoordType_min <= v <= CoordType_max.

Module til.

Record point := mkPoint { x : CoordType; y : CoordType }.

Record inclusive_rect :=
  mkRect { left : CoordType; top : CoordType; right : CoordType; bottom : CoordType }.

End til.

(** ** The pieces of the C++ standard library the file uses ([std]) *)

Module std.

(** [std::max] on [int]. *)
Definition max (a b : Z) : Z := if a <? b then b else a.

(** The loop shared by [std::lower_bound] and [std::upper_bound]: a
    binary search over the index range [first, first + len) of [v] for the
    first position whose element fails [p].
<<
    while (len > 0) {
        half = len / 2;  middle = first + half;
        if (p(middle[0])) { first = middle + 1; len = len - half - 1; }
        else                 len = half;
    }
    return first;
>>
    An iterator is its index into the vector.  The loop never reads
    outside the vector when [first + len] is at most its size; the [None]
    case is there only to make the function total. *)
Equations? partition_loop {A : Type} (p : A -> bool) (v : list A)
           (first len : nat) : nat by wf len lt :=
  partition_loop p v first O := first;
  partition_loop p v first (S n) with nth_error v (first + Nat.div2 (S n)) := {
    | Some e with p e := {
        | true := partition_loop p v (first + Nat.div2 (S n) + 1)
                                 (S n - Nat.div2 (S n) - 1);
        | false := partition_loop p v first (Nat.div2 (S n)) };
    | None := first }.
Proof.
  - change (S n - Nat.div2 (S n) - 1 < S n)%nat.
    generalize (Nat.div2 (S n)). intros half. lia.
  - change (Nat.div2 (S n) < S n)%nat. apply Nat.lt_div2. lia.
Qed.

(** [std::lower_bound(v.begin(), v.end(), value, comp)] with
    [comp(element, value)]: the first position whose element is not
    ordered before [value]. *)
Definition lower_bound {A V : Type} (v : list A) (value : V)
           (comp : A -> V -> bool) : nat :=
  partition_loop (fun e => comp e value) v 0%nat (length v).

(** [std::upper_bound(v.begin(), v.end(), value, comp)] with
    [comp(value, element)]: the first position whose element is ordered
    after [value]. *)
Definition upper_bound {A V : Type} (v : list A) (value : V)
           (comp : V -> A -> bool) : nat :=
  partition_loop (fun e => negb (comp value e)) v 0%nat (length v).

(** What leaves a try block other than its value. *)
Inductive exception := length_error | bad_alloc | unknown_exception.

Inductive Result (A : Type) :=
| Ok (a : A)
| Throw (e : exception).
Arguments Ok {A} a.
Arguments Throw {A} e.

(** [std::vector<T>{ first, last }] over two iterators into [v]: the
    elements at the positions [first, last).  With [last] before [first]
    the distance is negative; converted to [size_t] it exceeds
    [max_size()] and the constructor throws [std::length_error]. *)
Definition vector_from_range {A : Type} (v : list A) (first last : nat)
  : Result (list A) :=
  if (first <=? last)%nat
  then Ok (firstn (last - first) (skipn first v))
  else Throw length_error.

(** [v.emplace_back(a)]. *)
Definition emplace_back {A : Type} (v : list A) (a : A) : list A := v ++ [a].

End std.

(** ** Pattern intervals *)

(** An entry of the pattern interval tree,
    [interval_tree::Interval<til::point, size_t>]: the points where the
    pattern starts and stops, and the pattern id. *)
Record Interval := mkInterval { start : til.point; stop : til.point; value : nat }.

(** Modelled from the spec: the ordering of [til::point] is declared in
    [til/point.h], outside [src/].  Points are ordered in reading order, the
    row first and the column second, which is what makes an interval of the
    index scoped to its row. *)
Definition point_leb (a b : til.point) : bool :=
  (til.y a <? til.y b) || ((til.y a =? til.y b) && (til.x a <=? til.x b)).

(** Modelled from the spec: [IntervalTree::findOverlapping(start, stop)] is
    defined outside [src/].  It selects the entries that overlap the queried
    range: those that stop at or after [qstart] and start at or before
    [qstop].  [GetPatternId] passes [location + 1] and [location], so the
    selected entries are those overlapping the half-open range
    [[location, location + 1)]. *)
Definition overlapping (qstart qstop : til.point) (i : Interval) : bool :=
  point_leb qstart (stop i) && point_leb (start i) qstop.

(** ** Effects on collaborators

    [TextBuffer::TriggerScroll], [Terminal::_NotifyScrollEvent] and the
    [LOG_CAUGHT_EXCEPTION] macro act on objects outside the terminal state;
    a run records them in the order they happen. *)
Inductive Effect := TriggerScroll | NotifyScrollEvent | LogCaughtException.

Definition Effect_eq_dec (a b : Effect) : {a = b} + {a <> b}.
Proof. decide equality. Defined.

(** ** The terminal and its collaborators *)

(** The members of [Terminal] read or written in this translation unit.
    [Hidden] stands for the members it never names (the buffers, the mutable
    viewport, the selection, ...); [IntervalTree] is
    [interval_tree::IntervalTree<til::point, size_t>]. *)
Record TerminalMembers (Hidden IntervalTree : Type) := mkTerminal {
  _scrollOffset : CoordType;
  _searchHighlights : list til.inclusive_rect;
  _searchHighlightFocused : list til.inclusive_rect;
  _title : option string;
  _startingTitle : string;
  _patternIntervalTree : IntervalTree;
  _hidden : Hidden }.

Arguments mkTerminal {Hidden IntervalTree}.
Arguments _scrollOffset {Hidden IntervalTree}.
Arguments _searchHighlights {Hidden IntervalTree}.
Arguments _searchHighlightFocused {Hidden IntervalTree}.
Arguments _title {Hidden IntervalTree}.
Arguments _startingTitle {Hidden IntervalTree}.
Arguments _patternIntervalTree {Hidden IntervalTree}.
Arguments _hidden {Hidden IntervalTree}.

(** What the file takes from [Terminal.hpp] and the headers it includes:
    the types declared there, the operations of
    [Microsoft::Console::Types::Viewport] and of the interval tree that the
    file calls, and the helpers of [Terminal] defined in other translation
    units. *)
Class Collaborators := {
  Hidden : Type;
  Viewport : Type;
  IntervalTree : Type;
  Viewport_Top : Viewport -> CoordType;
  Viewport_BottomExclusive : Viewport -> CoordType;
  Viewport_FromInclusive : til.inclusive_rect -> Viewport;
  findOverlapping : IntervalTree -> til.point -> til.point -> list Interval;
  _GetVisibleViewport : TerminalMembers Hidden IntervalTree -> Viewport;
  ViewStartIndex : TerminalMembers Hidden IntervalTree -> CoordType;
  _VisibleStartIndex : TerminalMembers Hidden IntervalTree -> CoordType;
  _VisibleEndIndex : TerminalMembers Hidden IntervalTree -> CoordType;
  _GetSelectionRects :
    TerminalMembers Hidden IntervalTree -> std.Result (list til.inclusive_rect) }.

Definition Terminal {env : Collaborators} : Type :=
  TerminalMembers Hidden IntervalTree.

Section TerminalRenderData.

Context {env : Collaborators}.

(** *** Member functions that change the terminal: state and effect trace *)

Definition M (A : Type) : Type := Terminal -> A * Terminal * list Effect.

Definition ret {A : Type} (a : A) : M A := fun t => (a, t, []).

Definition bind {A B : Type} (m : M A) (k : A -> M B) : M B :=
  fun t =>
    let '(a, t1, e1) := m t in
    let '(b, t2, e2) := k a t1 in
    (b, t2, e1 ++ e2).

Definition call {A : Type} (f : Terminal -> A) : M A := fun t => (f t, t, []).

Definition assign (f : Terminal -> Terminal) : M unit := fun t => (tt, f t, []).

Definition raise (e : Effect) : M unit := fun t => (tt, t, [e]).

(** The three components of a finished run. *)
Definition returned {A : Type} (r : A * Terminal * list Effect) : A := fst (fst r).
Definition final {A : Type} (r : A * Terminal * list Effect) : Terminal := snd (fst r).
Definition effects {A : Type} (r : A * Terminal * list Effect) : list Effect := snd r.

Notation "x <- m ;; k" := (bind m (fun x => k))
  (at level 61, m at next level, right associativity).
Notation "m ;; k" := (bind m (fun _ => k))
  (at level 61, right associativity).

Definition set_scrollOffset (v : CoordType) (t : Terminal) : Terminal :=
  mkTerminal v (_searchHighlights t) (_searchHighlightFocused t) (_title t)
             (_startingTitle t) (_patternIntervalTree t) (_hidden t).

Definition set_searchHighlights (v : list til.inclusive_rect) (t : Terminal) : Terminal :=
  mkTerminal (_scrollOffset t) v (_searchHighlightFocused t) (_title t)
             (_startingTitle t) (_patternIntervalTree t) (_hidden t).

Definition set_searchHighlightFocused (v : list til.inclusive_rect) (t : Terminal)
  : Terminal :=
  mkTerminal (_scrollOffset t) (_searchHighlights t) v (_title t)
             (_startingTitle t) (_patternIntervalTree t) (_hidden t).

(** [Terminal::GetPatternId]. *)
Definition GetPatternId (t : Terminal) (location : til.point) : list nat :=
  let intervals :=
    findOverlapping (_patternIntervalTree t)
                    (til.mkPoint (til.x location + 1) (til.y location)) location in
  if (length intervals =? 0)%nat then []
  else fold_left (fun result interval => std.emplace_back result (value interval))
                 intervals [].

(** A function-try-block of a [noexcept] accessor:
    [try { body } catch (...) { LOG_CAUGHT_EXCEPTION(); return {}; }]. *)
Definition try_catch_all {A : Type} (body : std.Result (list A))
  : list A * list Effect :=
  match body with
  | std.Ok result => (result, [])
  | std.Throw _ => ([], [LogCaughtException])
  end.

(** The try block of [Terminal::GetSelectionRects]. *)
Definition GetSelectionRects_body (t : Terminal) : std.Result (list Viewport) :=
  match _GetSelectionRects t with
  | std.Ok lineRects =>
      std.Ok (fold_left
                (fun result lineRect =>
                   std.emplace_back result (Viewport_FromInclusive lineRect))
                lineRects [])
  | std.Throw e => std.Throw e
  end.

(** [Terminal::GetSelectionRects]. *)
Definition GetSelectionRects (t : Terminal) : list Viewport * list Effect :=
  try_catch_all (GetSelectionRects_body t).

(** The try block of [Terminal::GetSearchHighlights]. *)
Definition GetSearchHighlights_body (t : Terminal)
  : std.Result (list til.inclusive_rect) :=
  let viewport := _GetVisibleViewport t in
  let lowerIt :=
    std.lower_bound (_searchHighlights t) (Viewport_Top viewport)
                    (fun rect value => til.top rect <? value) in
  let upperIt :=
    std.upper_bound (_searchHighlights t) (Viewport_BottomExclusive viewport)
                    (fun value rect => value <? til.top rect) in
  std.vector_from_range (_searchHighlights t) lowerIt upperIt.

(** [Terminal::GetSearchHighlights]. *)
Definition GetSearchHighlights (t : Terminal)
  : list til.inclusive_rect * list Effect :=
  try_catch_all (GetSearchHighlights_body t).

(** [Terminal::_ScrollToPoints]. *)
Definition _ScrollToPoints (coordStart coordEnd : til.point) : M CoordType :=
  notifyScrollChange <-
    (visibleStart <- call _VisibleStartIndex ;;
     if til.y coordStart <? visibleStart then
       viewStart <- call ViewStartIndex ;;
       assign (set_scrollOffset (viewStart - til.y coordStart)) ;;
       ret true
     else
       visibleEnd <- call _VisibleEndIndex ;;
       if til.y coordEnd >? visibleEnd then
         viewStart <- call ViewStartIndex ;;
         assign (set_scrollOffset (std.max 0 (viewStart - til.y coordStart))) ;;
         ret true
       else
         ret false) ;;
  (if notifyScrollChange : bool
   then raise TriggerScroll ;; raise NotifyScrollEvent
   else ret tt) ;;
  call _scrollOffset.

(** [Terminal::SetSearchHighlights]. *)
Definition SetSearchHighlights (highlights : list til.inclusive_rect) : M unit :=
  assign (set_searchHighlights highlights).

(** [Terminal::SetSearchHighlightFocused].  [front] and [back] are read only
    on a vector that is not empty. *)
Definition SetSearchHighlightFocused (highlight : list til.inclusive_rect) : M unit :=
  match highlight with
  | [] => ret tt
  | front :: _ =>
      let back := last highlight front in
      let highlightStart := til.mkPoint (til.left front) (til.top front) in
      let highlightEnd := til.mkPoint (til.right back) (til.bottom back) in
      _ScrollToPoints highlightStart highlightEnd ;; ret tt
  end ;;
  assign (set_searchHighlightFocused highlight).

(** [Terminal::GetSearchHighlightFocused]. *)
Definition GetSearchHighlightFocused (t : Terminal) : list til.inclusive_rect :=
  _searchHighlightFocused t.

(** [Terminal::GetConsoleTitle]. *)
Definition GetConsoleTitle (t : Terminal) : string :=
  match _title t with
  | Some title => title
  | None => _startingTitle t
  end.

End TerminalRenderData.


(** ** Vocabulary of the statements *)

(** A vector is partitioned by [p] at [k] when [p] holds exactly on the
    positions before [k]: the precondition of the two standard searches. *)
Definition partitioned_at {A : Type} (p : A -> bool) (v : list A) (k : nat) : Prop :=
  forall i e, nth_error v i = Some e -> p e = (i <? k)%nat.

Definition key_le {A : Type} (key : A -> Z) (a b : A) : Prop := key a <= key b.

(** [p] holds on an initial segment of the key order. *)
Definition downward_closed {A : Type} (key : A -> Z) (p : A -> bool) : Prop :=
  forall a b, key a <= key b -> p b = true -> p a = true.

(** The highlight set is stored sorted ascending by top row. *)
Definition sorted_by_top (v : list til.inclusive_rect) : Prop :=
  Sorted (key_le til.top) v.

(** The top row of [rect] is one of the rows [top .. bottom], both ends
    included. *)
Definition top_within (top bottom : CoordType) (rect : til.inclusive_rect) : bool :=
  (top <=? til.top rect) && (til.top rect <=? bottom).

(** The entry [i] covers the cell at [location]. *)
Definition covers (location : til.point) (i : Interval) : bool :=
  overlapping (til.mkPoint (til.x location + 1) (til.y location)) location i.

(** ** An environment to run the functions in *)

(** Modelled from the spec: [Viewport], the interval tree and the helpers
    [_GetVisibleViewport], [ViewStartIndex], [_VisibleStartIndex] and
    [_VisibleEndIndex] are defined outside [src/].  Here the hidden state is
    the mutable viewport (an inclusive rectangle); a viewport has an
    inclusive top and an exclusive bottom row; the scroll offset is the
    distance in rows between the top of the visible viewport and the top of
    the mutable viewport, so the visible viewport is the mutable viewport
    moved up by the scroll offset; the interval index holds its entries in
    a list and a query selects the overlapping ones.  [selection] is what
    [_GetSelectionRects] produces. *)
Definition example_env (selection : std.Result (list til.inclusive_rect))
  : Collaborators :=
  {| Hidden := til.inclusive_rect;
     Viewport := til.inclusive_rect;
     IntervalTree := list Interval;
     Viewport_Top := til.top;
     Viewport_BottomExclusive := fun v => til.bottom v + 1;
     Viewport_FromInclusive := fun r => r;
     findOverlapping := fun tree qstart qstop => filter (overlapping qstart qstop) tree;
     _GetVisibleViewport := fun t =>
       til.mkRect (til.left (_hidden t)) (til.top (_hidden t) - _scrollOffset t)
                  (til.right (_hidden t)) (til.bottom (_hidden t) - _scrollOffset t);
     ViewStartIndex := fun t => til.top (_hidden t);
     _VisibleStartIndex := fun t => til.top (_hidden t) - _scrollOffset t;
     _VisibleEndIndex := fun t => til.bottom (_hidden t) - _scrollOffset t;
     _GetSelectionRects := fun _ => selection |}.

(** A rectangle covering the columns 0 to 9 of one row. *)
Definition row_rect (row : CoordType) : til.inclusive_rect := til.mkRect 0 row 9 row.

(** A terminal of [example_env]: 80 columns, the mutable viewport on the
    rows [top .. bottom], no title set at run time. *)
Definition example_terminal (top bottom scrollOffset : CoordType)
           (highlights : list til.inclusive_rect) (patterns : list Interval)
  : TerminalMembers til.inclusive_rect (list Interval) :=
  mkTerminal scrollOffset highlights [] None "cmd"%string patterns
             (til.mkRect 0 top 79 bottom).

(** The collaborators used in the examples: a selection that is empty, and
    one whose computation throws. *)
Definition env_ok : Collaborators := example_env (std.Ok []).
Definition env_throwing : Collaborators := example_env (std.Throw std.bad_alloc).

(** The mutable viewport on the rows 50 to 73, not scrolled. *)
Definition terminal_unscrolled : @Terminal env_ok := example_terminal 50 73 0 [] [].

(** The same, scrolled back by 20 rows: the rows 30 to 53 are visible. *)
Definition terminal_scrolled : @Terminal env_ok := example_terminal 50 73 20 [] [].

(** A terminal whose title was set at run time. *)
Definition terminal_titled : @Terminal env_ok :=
  mkTerminal 0 [] [] (Some "vim"%string) "cmd"%string [] (til.mkRect 0 50 79 73).

(** Three patterns on row 7: the columns 0 to 9 (id 1), the columns 2 to 4
    (id 2) and the columns 5 to 9 (id 3). *)
Definition patterns_row7 : list Interval :=
  [ mkInterval (til.mkPoint 0 7) (til.mkPoint 10 7) 1;
    mkInterval (til.mkPoint 2 7) (til.mkPoint 5 7) 2;
    mkInterval (til.mkPoint 5 7) (til.mkPoint 10 7) 3 ].

Definition terminal_patterns : @Terminal env_ok :=
  example_terminal 50 73 0 [] patterns_row7.

(** A terminal whose visible viewport is not one: its top row 10 is below
    its bottom row 0. *)
Definition terminal_inverted : @Terminal env_ok :=
  example_terminal 10 0 0 [row_rect 5] [].

(** The same members seen by the collaborators of [env_throwing]. *)
Definition terminal_no_selection : @Terminal env_throwing :=
  example_terminal 50 73 0 [] [].

(** ** The caller of the reconciler: selecting a region *)

(** The selection setters of [Terminal], defined with the rest of the
    selection code in another translation unit, and the
    [SelectionExpansion] enumeration, of which this file names the
    enumerator [Char]. *)
Class SelectionCollaborators {env : Collaborators} := {
  SelectionExpansion : Type;
  SelectionExpansion_Char : SelectionExpansion;
  SetSelectionAnchor : til.point -> M unit;
  SetSelectionEnd : til.point -> SelectionExpansion -> M unit }.

(** [Terminal::SelectNewRegion]. *)
Definition SelectNewRegion {env : Collaborators} {sel : SelectionCollaborators}
           (coordStart coordEnd : til.point) : M unit :=
  bind (_ScrollToPoints coordStart coordEnd) (fun newScrollOffset =>
    let newCoordStart :=
      til.mkPoint (til.x coordStart) (til.y coordStart - newScrollOffset) in
    let newCoordEnd :=
      til.mkPoint (til.x coordEnd) (til.y coordEnd - newScrollOffset) in
    bind (SetSelectionAnchor newCoordStart) (fun _ =>
      SetSelectionEnd newCoordEnd SelectionExpansion_Char)).

(** An environment with a selection: the hidden state is the mutable
    viewport with the anchor and the end of the selection, and the setters
    store the point they are given.  The helpers are those of
    [example_env]. *)
Record SelectionState := mkSelectionState {
  mutableViewport : til.inclusive_rect;
  selectionAnchor : option til.point;
  selectionEnd : option til.point }.

Definition selection_env : Collaborators :=
  {| Hidden := SelectionState;
     Viewport := til.inclusive_rect;
     IntervalTree := list Interval;
     Viewport_Top := til.top;
     Viewport_BottomExclusive := fun v => til.bottom v + 1;
     Viewport_FromInclusive := fun r => r;
     findOverlapping := fun tree qstart qstop => filter (overlapping qstart qstop) tree;
     _GetVisibleViewport := fun t =>
       let view := mutableViewport (_hidden t) in
       til.mkRect (til.left view) (til.top view - _scrollOffset t)
                  (til.right view) (til.bottom view - _scrollOffset t);
     ViewStartIndex := fun t => til.top (mutableViewport (_hidden t));
     _VisibleStartIndex := fun t =>
       til.top (mutableViewport (_hidden t)) - _scrollOffset t;
     _VisibleEndIndex := fun t =>
       til.bottom (mutableViewport (_hidden t)) - _scrollOffset t;
     _GetSelectionRects := fun _ => std.Ok [] |}.

Definition set_hidden (h : SelectionState)
           (t : TerminalMembers SelectionState (list Interval))
  : TerminalMembers SelectionState (list Interval) :=
  mkTerminal (_scrollOffset t) (_searchHighlights t) (_searchHighlightFocused t)
             (_title t) (_startingTitle t) (_patternIntervalTree t) h.

Definition store_anchor (point : til.point)
           (t : TerminalMembers SelectionState (list Interval))
  : TerminalMembers SelectionState (list Interval) :=
  set_hidden (mkSelectionState (mutableViewport (_hidden t)) (Some point)
                               (selectionEnd (_hidden t))) t.

Definition store_end (point : til.point)
           (t : TerminalMembers SelectionState (list Interval))
  : TerminalMembers SelectionState (list Interval) :=
  set_hidden (mkSelectionState (mutableViewport (_hidden t))
                               (selectionAnchor (_hidden t)) (Some point)) t.

Definition selection_setters : @SelectionCollaborators selection_env :=
  @Build_SelectionCollaborators selection_env unit tt
    (fun point t => (tt, store_anchor point t, []))
    (fun point _ t => (tt, store_end point t, [])).

(** The mutable viewport on the rows 50 to 73, nothing selected. *)
Definition terminal_selecting (scrollOffset : CoordType) : @Terminal selection_env :=
  mkTerminal scrollOffset [] [] None "cmd"%string []
             (mkSelectionState (til.mkRect 0 50 79 73) None None).

(** Highlights on the rows 90, 105, 124 and 130 while the rows 100 to 123
    are visible. *)
Definition terminal_highlights : @Terminal env_ok :=
  example_terminal 100 123 0 [row_rect 90; row_rect 105; row_rect 124; row_rect 130] [].

(** A selection of two lines. *)
Definition env_two_lines : Collaborators :=
  example_env (std.Ok [row_rect 3; row_rect 4]).

Definition terminal_two_lines : @Terminal env_two_lines :=
  example_terminal 50 73 0 [] [].

(** Highlights stored out of order, none of them on a visible row, while
    the rows 100 to 123 are visible. *)
Definition terminal_offscreen : @Terminal env_ok :=
  example_terminal 100 123 0 [row_rect 130; row_rect 90; row_rect 200] [].

(** Highlights stored out of order, all of them on visible rows. *)
Definition terminal_onscreen : @Terminal env_ok :=
  example_terminal 100 123 0 [row_rect 110; row_rect 105; row_rect 120] [].

(** A pane of two rows, the rows 50 and 51, not scrolled. *)
Definition terminal_two_rows : @Terminal env_ok := example_terminal 50 51 0 [] [].

(** A match of three lines in the scrollback, on the rows 40, 41 and 42. *)
Definition highlight_three_lines : list til.inclusive_rect :=
  [row_rect 40; row_rect 41; row_rect 42].

(** A match of two lines, on the rows 40 and 41. *)
Definition highlight_two_lines : list til.inclusive_rect :=
  [row_rect 40; row_rect 41].

(** ** Binary search *)

Section BinarySearch.

Context {A : Type} (p : A -> bool).

Lemma partition_loop_spec (v : list A) (first len k : nat) :
  partitioned_at p v k ->
  (first <= k <= first + len)%nat ->
  (first + len <= length v)%nat ->
  std.partition_loop p v first len = k.
Proof.
  intros Hpart.
  funelim (std.partition_loop p v first len); intros Hk Hlen.
  - lia.
  - assert (Hhalf : (Nat.div2 (S n) < S n)%nat) by (apply Nat.lt_div2; lia).
    apply nth_error_None in Heq. lia.
  - assert (Hhalf : (Nat.div2 (S n) < S n)%nat) by (apply Nat.lt_div2; lia).
    rewrite (Hpart _ _ Heq0) in Heq. apply Nat.ltb_lt in Heq.
    apply H; auto; lia.
  - assert (Hhalf : (Nat.div2 (S n) < S n)%nat) by (apply Nat.lt_div2; lia).
    rewrite (Hpart _ _ Heq0) in Heq. apply Nat.ltb_ge in Heq.
    apply H; auto; lia.
Qed.

End BinarySearch.

(** ** Searching a vector sorted by a key *)

Section SortedByKey.

Context {A : Type} (key : A -> Z).

Lemma sorted_filter_split (p : A -> bool) (v : list A) :
  downward_closed key p ->
  Sorted (key_le key) v ->
  v = filter p v ++ filter (fun e => negb (p e)) v.
Proof.
  intros Hp Hsorted.
  apply Sorted_StronglySorted in Hsorted;
    [| intros a b c; unfold key_le; lia].
  induction Hsorted as [| a l Hl IH Hall]; [reflexivity |].
  simpl. destruct (p a) eqn:Ha; simpl.
  - f_equal. exact IH.
  - assert (Hnone : filter p l = []).
    { clear IH Hl. induction Hall as [| b l Hab _ IHl]; [reflexivity |].
      simpl. destruct (p b) eqn:Hb.
      - rewrite (Hp a b Hab Hb) in Ha. discriminate.
      - exact IHl. }
    rewrite Hnone in IH |- *. simpl in *. f_equal. exact IH.
Qed.

Lemma split_partitioned (p : A -> bool) (v : list A) :
  v = filter p v ++ filter (fun e => negb (p e)) v ->
  partitioned_at p v (length (filter p v)).
Proof.
  intros Hsplit i e Hnth. rewrite Hsplit in Hnth.
  destruct (Nat.ltb_spec i (length (filter p v))) as [Hlt | Hge].
  - rewrite nth_error_app1 in Hnth by exact Hlt.
    apply nth_error_In, filter_In in Hnth. tauto.
  - rewrite nth_error_app2 in Hnth by exact Hge.
    apply nth_error_In, filter_In in Hnth.
    destruct Hnth as [_ Hneg]. now apply negb_true_iff in Hneg.
Qed.

Lemma partition_loop_sorted (p : A -> bool) (v : list A) :
  downward_closed key p ->
  Sorted (key_le key) v ->
  std.partition_loop p v 0 (length v) = length (filter p v).
Proof.
  intros Hp Hsorted.
  apply partition_loop_spec.
  - apply split_partitioned, sorted_filter_split; assumption.
  - split; [lia |]. simpl. apply filter_length_le.
  - simpl. lia.
Qed.

(** The elements between the two partition points. *)
Lemma sorted_slice (p1 p2 : A -> bool) (v : list A) :
  downward_closed key p1 ->
  downward_closed key p2 ->
  (forall e, p1 e = true -> p2 e = true) ->
  Sorted (key_le key) v ->
  firstn (length (filter p2 v) - length (filter p1 v))
         (skipn (length (filter p1 v)) v)
  = filter (fun e => negb (p1 e) && p2 e) v.
Proof.
  intros H1 H2 Himp Hsorted.
  rewrite <- skipn_firstn_comm.
  pose proof (sorted_filter_split p2 v H2 Hsorted) as S2.
  assert (F2 : firstn (length (filter p2 v)) v = filter p2 v).
  { rewrite S2 at 2. rewrite firstn_app, Nat.sub_diag, firstn_all. simpl.
    apply app_nil_r. }
  rewrite F2.
  pose proof (sorted_filter_split p1 v H1 Hsorted) as S1.
  assert (E : filter p2 v
              = filter p1 v ++ filter (fun e => negb (p1 e) && p2 e) v).
  { rewrite S1 at 1. rewrite filter_app. f_equal.
    - clear S1 S2 F2 Hsorted. induction v as [| a l IH]; [reflexivity |].
      simpl. destruct (p1 a) eqn:Ha; simpl; [| exact IH].
      rewrite (Himp a Ha). f_equal. exact IH.
    - clear. induction v as [| a l IH]; [reflexivity |].
      simpl. destruct (p1 a); simpl; [exact IH |].
      destruct (p2 a); [f_equal |]; exact IH. }
  rewrite E, skipn_app, Nat.sub_diag, skipn_all. reflexivity.
Qed.

End SortedByKey.

(** ** The search-highlight query *)

Lemma filter_length_mono {A : Type} (p q : A -> bool) (v : list A) :
  (forall e, p e = true -> q e = true) ->
  (length (filter p v) <= length (filter q v))%nat.
Proof.
  intros Himp. induction v as [| a l IH]; [reflexivity |].
  simpl. destruct (p a) eqn:Ha.
  - rewrite (Himp a Ha). simpl. lia.
  - destruct (q a); simpl; lia.
Qed.

Lemma lower_bound_sorted (v : list til.inclusive_rect) (row : CoordType) :
  sorted_by_top v ->
  std.lower_bound v row (fun rect value => til.top rect <? value)
  = length (filter (fun rect => til.top rect <? row) v).
Proof.
  intros Hsorted. unfold std.lower_bound.
  apply (partition_loop_sorted til.top); [| exact Hsorted].
  intros a b Hab Hb. apply Z.ltb_lt in Hb. apply Z.ltb_lt. lia.
Qed.

Lemma upper_bound_sorted (v : list til.inclusive_rect) (row : CoordType) :
  sorted_by_top v ->
  std.upper_bound v row (fun value rect => value <? til.top rect)
  = length (filter (fun rect => negb (row <? til.top rect)) v).
Proof.
  intros Hsorted. unfold std.upper_bound.
  apply (partition_loop_sorted til.top); [| exact Hsorted].
  intros a b Hab Hb. apply negb_true_iff, Z.ltb_ge in Hb.
  apply negb_true_iff, Z.ltb_ge. lia.
Qed.

Section Properties.

Context {env : Collaborators}.

(** X19.  On a highlight set sorted by top row and a viewport whose top is not
    below its bottom, [GetSearchHighlights] returns, in stored order and
    without logging, the rectangles whose top row is one of the rows from
    the top of the viewport to its exclusive bottom, that row included. *)
Theorem GetSearchHighlights_sorted (t : Terminal) :
  sorted_by_top (_searchHighlights t) ->
  Viewport_Top (_GetVisibleViewport t)
    <= Viewport_BottomExclusive (_GetVisibleViewport t) ->
  GetSearchHighlights t
  = (filter (top_within (Viewport_Top (_GetVisibleViewport t))
                        (Viewport_BottomExclusive (_GetVisibleViewport t)))
            (_searchHighlights t), []).
Proof.
  intros Hsorted Hview.
  unfold GetSearchHighlights, GetSearchHighlights_body.
  set (T := Viewport_Top (_GetVisibleViewport t)) in *.
  set (B := Viewport_BottomExclusive (_GetVisibleViewport t)) in *.
  rewrite lower_bound_sorted, upper_bound_sorted by exact Hsorted.
  set (p1 := fun rect => til.top rect <? T).
  set (p2 := fun rect => negb (B <? til.top rect)).
  assert (Himp : forall e, p1 e = true -> p2 e = true).
  { intros e He. unfold p1, p2 in *. apply Z.ltb_lt in He.
    apply negb_true_iff, Z.ltb_ge. lia. }
  unfold std.vector_from_range.
  pose proof (filter_length_mono p1 p2 (_searchHighlights t) Himp) as Hle.
  apply Nat.leb_le in Hle. rewrite Hle. simpl. f_equal.
  rewrite (sorted_slice til.top p1 p2); auto.
  - apply filter_ext. intros r. unfold p1, p2, top_within.
    rewrite Z.leb_antisym. rewrite (Z.leb_antisym B). reflexivity.
  - intros a b Hab Hb. unfold p1 in *. apply Z.ltb_lt in Hb. apply Z.ltb_lt. lia.
  - intros a b Hab Hb. unfold p2 in *. apply negb_true_iff, Z.ltb_ge in Hb.
    apply negb_true_iff, Z.ltb_ge. lia.
Qed.

End Properties.

(** C1 (the code at the failing input).  The viewport shows the rows 100 to
    123, so its exclusive bottom is 124, and the highlights sit on the rows
    90, 105, 124 and 130.  [GetSearchHighlights] returns the rectangle on
    row 124 along with the one on row 105: the upper search looks for the
    first top row greater than the exclusive bottom, not for the first one
    at or after it. *)
Theorem GetSearchHighlights_returns_row_below_viewport :
  @GetSearchHighlights (example_env (std.Ok []))
    (example_terminal 100 123 0 [row_rect 90; row_rect 105; row_rect 124; row_rect 130] [])
  = ([row_rect 105; row_rect 124], []).
Proof. vm_compute. reflexivity. Qed.

(** The example of the specification: rows 100 to 123 visible, highlights
    on the rows 90, 105 and 130. *)
Example GetSearchHighlights_example :
  @GetSearchHighlights (example_env (std.Ok []))
    (example_terminal 100 123 0 [row_rect 90; row_rect 105; row_rect 130] [])
  = ([row_rect 105], []).
Proof. vm_compute. reflexivity. Qed.

(** ** The viewport reconciler *)

Lemma std_max_spec (a b : Z) : std.max a b = Z.max a b.
Proof. unfold std.max. destruct (Z.ltb_spec a b); lia. Qed.

(** On rows of a buffer, which are never negative, the subtraction that
    [_ScrollToPoints] performs stays in the range of [til::CoordType]. *)
Lemma sub_in_range (a b : Z) :
  representable a -> representable b -> 0 <= a -> 0 <= b -> representable (a - b).
Proof. unfold representable, CoordType_min, CoordType_max. lia. Qed.

Section Reconciler.

Context {env : Collaborators}.

(** The three ways a call can go. *)
Lemma ScrollToPoints_above (t : Terminal) (coordStart coordEnd : til.point) :
  til.y coordStart < _VisibleStartIndex t ->
  _ScrollToPoints coordStart coordEnd t
  = (ViewStartIndex t - til.y coordStart,
     set_scrollOffset (ViewStartIndex t - til.y coordStart) t,
     [TriggerScroll; NotifyScrollEvent]).
Proof.
  intros Habove. apply Z.ltb_lt in Habove.
  unfold _ScrollToPoints, bind, call, assign, ret, raise. simpl.
  rewrite Habove. reflexivity.
Qed.

Lemma ScrollToPoints_below (t : Terminal) (coordStart coordEnd : til.point) :
  _VisibleStartIndex t <= til.y coordStart ->
  _VisibleEndIndex t < til.y coordEnd ->
  _ScrollToPoints coordStart coordEnd t
  = (std.max 0 (ViewStartIndex t - til.y coordStart),
     set_scrollOffset (std.max 0 (ViewStartIndex t - til.y coordStart)) t,
     [TriggerScroll; NotifyScrollEvent]).
Proof.
  intros Hstart Hend. apply Z.ltb_ge in Hstart.
  apply Z.ltb_lt in Hend. rewrite <- Z.gtb_ltb in Hend.
  unfold _ScrollToPoints, bind, call, assign, ret, raise. simpl.
  rewrite Hstart. simpl. rewrite Hend. reflexivity.
Qed.

Lemma ScrollToPoints_visible (t : Terminal) (coordStart coordEnd : til.point) :
  _VisibleStartIndex t <= til.y coordStart ->
  til.y coordEnd <= _VisibleEndIndex t ->
  _ScrollToPoints coordStart coordEnd t = (_scrollOffset t, t, []).
Proof.
  intros Hstart Hend. apply Z.ltb_ge in Hstart.
  apply Z.ltb_ge in Hend. rewrite <- Z.gtb_ltb in Hend.
  unfold _ScrollToPoints, bind, call, assign, ret, raise. simpl.
  rewrite Hstart. simpl. rewrite Hend. reflexivity.
Qed.

(** C2.  When the start row is above the visible top row, the new scroll
    offset is the top row of the unscrolled view minus the start row.
    That many rows above the unscrolled top is the start row itself, so a
    visible top row that lies the scroll offset above the unscrolled top is
    the start row after the call. *)
Theorem ScrollToPoints_above_viewport
        (t : Terminal) (coordStart coordEnd : til.point) :
  til.y coordStart < _VisibleStartIndex t ->
  let run := _ScrollToPoints coordStart coordEnd t in
  returned run = ViewStartIndex t - til.y coordStart /\
  _scrollOffset (final run) = ViewStartIndex t - til.y coordStart /\
  ViewStartIndex t - _scrollOffset (final run) = til.y coordStart /\
  (ViewStartIndex (final run) = ViewStartIndex t ->
   _VisibleStartIndex (final run)
     = ViewStartIndex (final run) - _scrollOffset (final run) ->
   _VisibleStartIndex (final run) = til.y coordStart).
Proof.
  intros Habove run. unfold run.
  rewrite (ScrollToPoints_above t coordStart coordEnd Habove).
  unfold returned, final. simpl.
  repeat split; try lia.
Qed.

(** C3.  When the start row is not above the visible top row and the end
    row is below the visible bottom row, the new scroll offset is the
    larger of 0 and the top row of the unscrolled view minus the start row;
    it is not negative. *)
Theorem ScrollToPoints_below_viewport
        (t : Terminal) (coordStart coordEnd : til.point) :
  ~ til.y coordStart < _VisibleStartIndex t ->
  til.y coordEnd > _VisibleEndIndex t ->
  let run := _ScrollToPoints coordStart coordEnd t in
  returned run = Z.max 0 (ViewStartIndex t - til.y coordStart) /\
  _scrollOffset (final run) = Z.max 0 (ViewStartIndex t - til.y coordStart) /\
  0 <= _scrollOffset (final run).
Proof.
  intros Hstart Hend run. unfold run.
  rewrite (ScrollToPoints_below t coordStart coordEnd) by lia.
  unfold returned, final. simpl. rewrite std_max_spec.
  repeat split; lia.
Qed.

(** C4.  When the start row is not above the visible top row and the end
    row is not below the visible bottom row, the call returns the scroll
    offset it found, leaves the terminal as it was and raises neither the
    scroll trigger nor the scroll notification; a second call with the same
    range does the same. *)
Theorem ScrollToPoints_visible_noop
        (t : Terminal) (coordStart coordEnd : til.point) :
  ~ til.y coordStart < _VisibleStartIndex t ->
  ~ til.y coordEnd > _VisibleEndIndex t ->
  _ScrollToPoints coordStart coordEnd t = (_scrollOffset t, t, []) /\
  bind (_ScrollToPoints coordStart coordEnd)
       (fun _ => _ScrollToPoints coordStart coordEnd) t
  = (_scrollOffset t, t, []).
Proof.
  intros Hstart Hend.
  assert (Hrun : _ScrollToPoints coordStart coordEnd t = (_scrollOffset t, t, []))
    by (apply ScrollToPoints_visible; lia).
  split; [exact Hrun |].
  unfold bind. rewrite Hrun. rewrite Hrun. reflexivity.
Qed.

(** C5.  The two branches exclude each other.  When one of them is taken
    the call assigns the scroll offset of that branch and raises the scroll
    trigger and then the scroll notification, each once; when none is taken
    it raises nothing and changes nothing.  The value returned is the
    scroll offset at the end of the call. *)
Theorem ScrollToPoints_one_branch_notifies_once
        (t : Terminal) (coordStart coordEnd : til.point) :
  let above := til.y coordStart < _VisibleStartIndex t in
  let below := ~ til.y coordStart < _VisibleStartIndex t /\
               til.y coordEnd > _VisibleEndIndex t in
  let run := _ScrollToPoints coordStart coordEnd t in
  ~ (above /\ below) /\
  (above ->
   final run = set_scrollOffset (ViewStartIndex t - til.y coordStart) t /\
   effects run = [TriggerScroll; NotifyScrollEvent]) /\
  (below ->
   final run
     = set_scrollOffset (std.max 0 (ViewStartIndex t - til.y coordStart)) t /\
   effects run = [TriggerScroll; NotifyScrollEvent]) /\
  (~ above /\ ~ below -> final run = t /\ effects run = []) /\
  (effects run = [] \/
   (count_occ Effect_eq_dec (effects run) TriggerScroll = 1%nat /\
    count_occ Effect_eq_dec (effects run) NotifyScrollEvent = 1%nat)) /\
  returned run = _scrollOffset (final run).
Proof.
  intros above below run. unfold above, below, run.
  destruct (Z.lt_ge_cases (til.y coordStart) (_VisibleStartIndex t)) as [Ha | Ha].
  - rewrite (ScrollToPoints_above t coordStart coordEnd Ha).
    unfold final, effects, returned. simpl.
    repeat split; try tauto; try lia.
  - destruct (Z.lt_ge_cases (_VisibleEndIndex t) (til.y coordEnd)) as [Hb | Hb].
    + rewrite (ScrollToPoints_below t coordStart coordEnd Ha Hb).
      unfold final, effects, returned. simpl.
      repeat split; try tauto; try lia.
    + rewrite (ScrollToPoints_visible t coordStart coordEnd Ha Hb).
      unfold final, effects, returned. simpl.
      repeat split; try tauto; try lia.
Qed.

(** C9.  When the visible top row is the top row of the unscrolled view
    minus the scroll offset, and the scroll offset is not negative before
    the call, it is not negative after it, whichever branch is taken. *)
Theorem ScrollToPoints_offset_nonneg
        (t : Terminal) (coordStart coordEnd : til.point) :
  0 <= _scrollOffset t ->
  _VisibleStartIndex t = ViewStartIndex t - _scrollOffset t ->
  let run := _ScrollToPoints coordStart coordEnd t in
  0 <= returned run /\ 0 <= _scrollOffset (final run).
Proof.
  intros Hoffset Hvisible run. unfold run.
  destruct (Z.lt_ge_cases (til.y coordStart) (_VisibleStartIndex t)) as [Ha | Ha].
  - rewrite (ScrollToPoints_above t coordStart coordEnd Ha).
    unfold final, returned. simpl. lia.
  - destruct (Z.lt_ge_cases (_VisibleEndIndex t) (til.y coordEnd)) as [Hb | Hb].
    + rewrite (ScrollToPoints_below t coordStart coordEnd Ha Hb).
      unfold final, returned. simpl. rewrite std_max_spec. lia.
    + rewrite (ScrollToPoints_visible t coordStart coordEnd Ha Hb).
      unfold final, returned. simpl. lia.
Qed.

End Reconciler.

(** The example of the specification: visible top row 50, unscrolled top
    row 50, a range from row 40 to row 60.  The new offset is 10 and row 40
    is the new visible top row. *)
Lemma ScrollToPoints_above_viewport_witness :
  til.y (til.mkPoint 0 40) < @_VisibleStartIndex env_ok terminal_unscrolled /\
  returned (@_ScrollToPoints env_ok (til.mkPoint 0 40) (til.mkPoint 5 60)
                             terminal_unscrolled) = 10 /\
  @_VisibleStartIndex env_ok
    (final (@_ScrollToPoints env_ok (til.mkPoint 0 40) (til.mkPoint 5 60)
                             terminal_unscrolled)) = 40.
Proof.
  split; [reflexivity |].
  destruct (@ScrollToPoints_above_viewport env_ok terminal_unscrolled
              (til.mkPoint 0 40) (til.mkPoint 5 60)) as (Hret & _ & _ & Hvis).
  - vm_compute. reflexivity.
  - split; [exact Hret | apply Hvis; reflexivity].
Defined.

(** Rows 30 to 53 visible, a range from row 45 to row 55: the new offset
    is 5. *)
Lemma ScrollToPoints_below_viewport_witness :
  returned (@_ScrollToPoints env_ok (til.mkPoint 0 45) (til.mkPoint 5 55)
                             terminal_scrolled) = 5.
Proof.
  destruct (@ScrollToPoints_below_viewport env_ok terminal_scrolled
              (til.mkPoint 0 45) (til.mkPoint 5 55)) as (Hret & _ & _).
  - vm_compute. discriminate.
  - vm_compute. reflexivity.
  - exact Hret.
Defined.

(** Rows 50 to 73 visible, a range from row 55 to row 60: nothing happens. *)
Lemma ScrollToPoints_visible_noop_witness :
  @_ScrollToPoints env_ok (til.mkPoint 0 55) (til.mkPoint 5 60) terminal_unscrolled
  = (0, terminal_unscrolled, []).
Proof.
  destruct (@ScrollToPoints_visible_noop env_ok terminal_unscrolled
              (til.mkPoint 0 55) (til.mkPoint 5 60)) as (Hrun & _).
  - vm_compute. discriminate.
  - vm_compute. discriminate.
  - exact Hrun.
Defined.

(** A range starting above the viewport raises the two notifications. *)
Lemma ScrollToPoints_one_branch_notifies_once_witness :
  effects (@_ScrollToPoints env_ok (til.mkPoint 0 40) (til.mkPoint 5 60)
                            terminal_unscrolled)
  = [TriggerScroll; NotifyScrollEvent].
Proof.
  destruct (@ScrollToPoints_one_branch_notifies_once env_ok terminal_unscrolled
              (til.mkPoint 0 40) (til.mkPoint 5 60)) as (_ & Habove & _).
  apply Habove. vm_compute. reflexivity.
Defined.

(** Rows 30 to 53 visible with offset 20, a range starting on row 10: the
    new offset, 40, is not negative. *)
Lemma ScrollToPoints_offset_nonneg_witness :
  0 <= returned (@_ScrollToPoints env_ok (til.mkPoint 0 10) (til.mkPoint 5 12)
                                  terminal_scrolled).
Proof.
  destruct (@ScrollToPoints_offset_nonneg env_ok terminal_scrolled
              (til.mkPoint 0 10) (til.mkPoint 5 12)) as (Hret & _).
  - vm_compute. discriminate.
  - reflexivity.
  - exact Hret.
Defined.

(** ** The pattern ids of a location *)

Lemma fold_left_emplace_back {A B : Type} (f : A -> B) (v : list A) (acc : list B) :
  fold_left (fun result a => std.emplace_back result (f a)) v acc = acc ++ map f v.
Proof.
  revert acc. induction v as [| a l IH]; intros acc; simpl.
  - now rewrite app_nil_r.
  - rewrite IH. unfold std.emplace_back. now rewrite <- app_assoc.
Qed.

(** An entry that lies on one row covers a location exactly when the
    location is on that row, at or after its start column and before its
    stop column. *)
Lemma covers_on_row (location : til.point) (i : Interval) :
  til.y (start i) = til.y (stop i) ->
  covers location i = true <->
  til.y location = til.y (start i) /\
  til.x (start i) <= til.x location < til.x (stop i).
Proof.
  intros Hrow. unfold covers, overlapping, point_leb. simpl.
  rewrite andb_true_iff, !orb_true_iff, !andb_true_iff.
  rewrite !Z.ltb_lt, !Z.eqb_eq, !Z.leb_le. lia.
Qed.

Section PatternIds.

Context {env : Collaborators}.

Lemma GetPatternId_map (t : Terminal) (location : til.point) :
  GetPatternId t location
  = map value
        (findOverlapping (_patternIntervalTree t)
           (til.mkPoint (til.x location + 1) (til.y location)) location).
Proof.
  unfold GetPatternId.
  destruct (findOverlapping _ _ _) as [| i l] eqn:E; [reflexivity |].
  change (length (i :: l) =? 0)%nat with false.
  now rewrite fold_left_emplace_back.
Qed.

(** C6.  For an interval index whose query returns, in some order, the
    entries overlapping the queried range: [GetPatternId] returns the ids
    of the entries covering the location, one for each of them, in some
    order; it returns nothing when the index has no entry and when no entry
    covers the location. *)
Theorem GetPatternId_overlapping_ids (entries : IntervalTree -> list Interval) :
  (forall tree qstart qstop,
      Permutation (findOverlapping tree qstart qstop)
                  (filter (overlapping qstart qstop) (entries tree))) ->
  forall (t : Terminal) (location : til.point),
    let hits := filter (covers location) (entries (_patternIntervalTree t)) in
    Permutation (GetPatternId t location) (map value hits) /\
    length (GetPatternId t location) = length hits /\
    (entries (_patternIntervalTree t) = [] -> GetPatternId t location = []) /\
    (Forall (fun i => covers location i = false) (entries (_patternIntervalTree t)) ->
     GetPatternId t location = []).
Proof.
  intros Hquery t location hits.
  assert (Hperm : Permutation (GetPatternId t location) (map value hits)).
  { rewrite GetPatternId_map. apply Permutation_map. apply Hquery. }
  split; [exact Hperm |].
  split; [rewrite <- (length_map value hits); now apply Permutation_length |].
  split.
  - intros Hempty. unfold hits in Hperm. rewrite Hempty in Hperm. simpl in Hperm.
    now apply Permutation_nil, Permutation_sym.
  - intros Hnone.
    assert (Hhits : hits = []).
    { unfold hits. clear Hperm hits.
      induction Hnone as [| i l Hi _ IH]; [reflexivity |].
      simpl. now rewrite Hi. }
    rewrite Hhits in Hperm. simpl in Hperm.
    now apply Permutation_nil, Permutation_sym.
Qed.

End PatternIds.

(** ** The accessors with a function-try-block *)

Section Accessors.

Context {env : Collaborators}.

(** C8.  Both accessors return a plain sequence: nothing thrown inside the
    try block reaches the caller.  When the block throws, be it the
    selection computation or the construction of the result, the accessor
    logs the exception once and returns the empty sequence; when it does
    not, the accessor returns its result and logs nothing. *)
Theorem accessors_catch_all (t : Terminal) :
  (forall e, _GetSelectionRects t = std.Throw e ->
             GetSelectionRects t = ([], [LogCaughtException])) /\
  (forall e, GetSelectionRects_body t = std.Throw e ->
             GetSelectionRects t = ([], [LogCaughtException])) /\
  (forall e, GetSearchHighlights_body t = std.Throw e ->
             GetSearchHighlights t = ([], [LogCaughtException])) /\
  (forall result, GetSelectionRects_body t = std.Ok result ->
                  GetSelectionRects t = (result, [])) /\
  (forall result, GetSearchHighlights_body t = std.Ok result ->
                  GetSearchHighlights t = (result, [])).
Proof.
  unfold GetSelectionRects, GetSearchHighlights.
  repeat split; intros r Hr.
  - unfold GetSelectionRects_body. rewrite Hr. reflexivity.
  - rewrite Hr. reflexivity.
  - rewrite Hr. reflexivity.
  - rewrite Hr. reflexivity.
  - rewrite Hr. reflexivity.
Qed.

(** C10.  The title is the one set at run time when there is one and the
    starting title otherwise; two terminals that agree on these two members
    have the same title. *)
Theorem GetConsoleTitle_spec (t : Terminal) :
  (forall title, _title t = Some title -> GetConsoleTitle t = title) /\
  (_title t = None -> GetConsoleTitle t = _startingTitle t) /\
  (forall t' : Terminal,
      _title t' = _title t -> _startingTitle t' = _startingTitle t ->
      GetConsoleTitle t' = GetConsoleTitle t).
Proof.
  unfold GetConsoleTitle. repeat split.
  - intros title Htitle. now rewrite Htitle.
  - intros Htitle. now rewrite Htitle.
  - intros t' Htitle Hstarting. now rewrite Htitle, Hstarting.
Qed.

End Accessors.

(** Column 3 of row 7 is covered by the patterns 1 and 2; nothing covers
    column 3 of row 8. *)
Lemma GetPatternId_overlapping_ids_witness :
  Permutation (@GetPatternId env_ok terminal_patterns (til.mkPoint 3 7)) [1; 2]%nat /\
  @GetPatternId env_ok terminal_patterns (til.mkPoint 3 8) = [].
Proof.
  destruct (@GetPatternId_overlapping_ids env_ok (fun tree => tree)
              (fun tree qstart qstop => Permutation_refl _)
              terminal_patterns (til.mkPoint 3 7)) as (Hperm & _).
  destruct (@GetPatternId_overlapping_ids env_ok (fun tree => tree)
              (fun tree qstart qstop => Permutation_refl _)
              terminal_patterns (til.mkPoint 3 8)) as (_ & _ & _ & Hnone).
  split; [exact Hperm |].
  apply Hnone. repeat constructor.
Defined.

(** A selection computation that throws, and a result vector built from an
    inverted iterator range: both accessors return the empty sequence and
    log once. *)
Lemma accessors_catch_all_witness :
  @GetSelectionRects env_throwing terminal_no_selection = ([], [LogCaughtException]) /\
  @GetSearchHighlights env_ok terminal_inverted = ([], [LogCaughtException]).
Proof.
  split.
  - apply (proj1 (@accessors_catch_all env_throwing terminal_no_selection)
             std.bad_alloc).
    reflexivity.
  - destruct (@accessors_catch_all env_ok terminal_inverted)
      as (_ & _ & Hthrow & _).
    apply (Hthrow std.length_error). vm_compute. reflexivity.
Defined.

(** A title set at run time wins over the starting title. *)
Lemma GetConsoleTitle_spec_witness :
  @GetConsoleTitle env_ok terminal_titled = "vim"%string /\
  @GetConsoleTitle env_ok terminal_unscrolled = "cmd"%string.
Proof.
  split.
  - apply (proj1 (@GetConsoleTitle_spec env_ok terminal_titled)). reflexivity.
  - destruct (@GetConsoleTitle_spec env_ok terminal_unscrolled) as (_ & Hnone & _).
    apply Hnone. reflexivity.
Defined.

(** * Further properties *)

(** ** The two searches on any vector *)

Lemma partition_loop_step {A : Type} (p : A -> bool) (v : list A) (first n : nat) :
  std.partition_loop p v first (S n)
  = match nth_error v (first + Nat.div2 (S n)) with
    | Some e =>
        if p e
        then std.partition_loop p v (first + Nat.div2 (S n) + 1)
                                (S n - Nat.div2 (S n) - 1)
        else std.partition_loop p v first (Nat.div2 (S n))
    | None => first
    end.
Proof.
  simp partition_loop.
  destruct (nth_error v (first + Nat.div2 (S n))) as [e |]; simpl;
    [destruct (p e) |]; reflexivity.
Qed.

Lemma div2_succ_lt (n : nat) : (Nat.div2 (S n) < S n)%nat.
Proof. apply Nat.lt_div2. lia. Qed.

Lemma partition_loop_range {A : Type} (p : A -> bool) (v : list A) (len first : nat) :
  (first <= std.partition_loop p v first len <= first + len)%nat.
Proof.
  revert first. induction len as [len IH] using lt_wf_ind. intros first.
  destruct len as [| n]; [simp partition_loop; lia |].
  rewrite partition_loop_step. pose proof (div2_succ_lt n) as Hhalf.
  remember (Nat.div2 (S n)) as half eqn:Ehalf. clear Ehalf.
  destruct (nth_error v (first + half)) as [e |]; [| lia].
  destruct (p e).
  - assert (Hlt : (S n - half - 1 < S n)%nat) by lia.
    pose proof (IH _ Hlt (first + half + 1)%nat). lia.
  - pose proof (IH half Hhalf first). lia.
Qed.

Lemma partition_loop_mono {A : Type} (p q : A -> bool) (v : list A) :
  (forall e, In e v -> p e = true -> q e = true) ->
  forall len first,
    (std.partition_loop p v first len <= std.partition_loop q v first len)%nat.
Proof.
  intros Himp len. induction len as [len IH] using lt_wf_ind. intros first.
  destruct len as [| n]; [simp partition_loop; lia |].
  rewrite !partition_loop_step. pose proof (div2_succ_lt n) as Hhalf.
  remember (Nat.div2 (S n)) as half eqn:Ehalf. clear Ehalf.
  destruct (nth_error v (first + half)) as [e |] eqn:He; [| lia].
  destruct (p e) eqn:Hp.
  - rewrite (Himp e (nth_error_In _ _ He) Hp). apply IH. lia.
  - destruct (q e).
    + pose proof (partition_loop_range p v half first).
      pose proof (partition_loop_range q v (S n - half - 1) (first + half + 1)).
      lia.
    + apply IH. exact Hhalf.
Qed.

Lemma top_within_spec (T B : CoordType) (r : til.inclusive_rect) :
  top_within T B r = negb (til.top r <? T) && negb (B <? til.top r).
Proof.
  unfold top_within. rewrite Z.leb_antisym, (Z.leb_antisym B). reflexivity.
Qed.

(** The positions the two searches of [GetSearchHighlights] return, on a
    sorted vector and a viewport whose top is not below its bottom. *)
Lemma visible_range_sorted (v : list til.inclusive_rect) (T B : CoordType) :
  sorted_by_top v ->
  T <= B ->
  std.vector_from_range v
    (std.lower_bound v T (fun rect value => til.top rect <? value))
    (std.upper_bound v B (fun value rect => value <? til.top rect))
  = std.Ok (filter (top_within T B) v).
Proof.
  intros Hsorted Hview.
  rewrite lower_bound_sorted, upper_bound_sorted by exact Hsorted.
  set (p1 := fun rect => til.top rect <? T).
  set (p2 := fun rect => negb (B <? til.top rect)).
  assert (Himp : forall e, p1 e = true -> p2 e = true).
  { intros e He. unfold p1, p2 in *. apply Z.ltb_lt in He.
    apply negb_true_iff, Z.ltb_ge. lia. }
  unfold std.vector_from_range.
  pose proof (filter_length_mono p1 p2 v Himp) as Hle.
  apply Nat.leb_le in Hle. rewrite Hle. f_equal.
  rewrite (sorted_slice til.top p1 p2); auto.
  - apply filter_ext. intros r. now rewrite top_within_spec.
  - intros a b Hab Hb. unfold p1 in *. apply Z.ltb_lt in Hb. apply Z.ltb_lt. lia.
  - intros a b Hab Hb. unfold p2 in *. apply negb_true_iff, Z.ltb_ge in Hb.
    apply negb_true_iff, Z.ltb_ge. lia.
Qed.

(** X1.  Whatever the vector holds and whatever the comparator answers,
    [std::lower_bound] and [std::upper_bound] return a position of the
    vector or its end: the iterators handed to the vector constructor never
    point outside the stored highlights. *)
Theorem search_positions_in_bounds
        {A V : Type} (v : list A) (value : V)
        (comp_lower : A -> V -> bool) (comp_upper : V -> A -> bool) :
  (std.lower_bound v value comp_lower <= length v)%nat /\
  (std.upper_bound v value comp_upper <= length v)%nat.
Proof.
  unfold std.lower_bound, std.upper_bound. split.
  - pose proof (partition_loop_range (fun e => comp_lower e value) v (length v) 0).
    lia.
  - pose proof (partition_loop_range (fun e => negb (comp_upper value e)) v
                                     (length v) 0).
    lia.
Qed.

(** ** The search-highlight query on any highlight set *)

Section HighlightQuery.

Context {env : Collaborators}.

(** X2.  When the top of the visible viewport is at most one row below its
    exclusive bottom, which holds for every viewport of non-negative
    height, the try block of [GetSearchHighlights] completes: the lower
    position is not after the upper one, whether or not the highlights are
    sorted, so nothing is thrown and nothing is logged. *)
Theorem GetSearchHighlights_completes (t : Terminal) :
  Viewport_Top (_GetVisibleViewport t)
    <= Viewport_BottomExclusive (_GetVisibleViewport t) + 1 ->
  exists result,
    GetSearchHighlights_body t = std.Ok result /\
    GetSearchHighlights t = (result, []).
Proof.
  intros Hview. unfold GetSearchHighlights, GetSearchHighlights_body.
  unfold std.lower_bound, std.upper_bound, std.vector_from_range.
  match goal with
  | |- context [(?lo <=? ?hi)%nat] =>
      assert (Hle : (lo <= hi)%nat);
      [| apply Nat.leb_le in Hle; rewrite Hle; eexists; split; reflexivity]
  end.
  apply partition_loop_mono. intros e _ He.
  apply Z.ltb_lt in He. apply negb_true_iff, Z.ltb_ge. lia.
Qed.

(** X3.  The rectangles returned are a run of consecutive stored
    rectangles, in stored order: the stored sequence is some rectangles,
    then the result, then the remaining ones.  This holds for every
    highlight set and every viewport. *)
Theorem GetSearchHighlights_contiguous (t : Terminal) :
  exists before after,
    _searchHighlights t = before ++ fst (GetSearchHighlights t) ++ after.
Proof.
  unfold GetSearchHighlights, GetSearchHighlights_body, std.vector_from_range.
  match goal with
  | |- context [(?lo <=? ?hi)%nat] => set (lower := lo); set (upper := hi)
  end.
  destruct (lower <=? upper)%nat; simpl.
  - exists (firstn lower (_searchHighlights t)),
           (skipn (upper - lower) (skipn lower (_searchHighlights t))).
    now rewrite firstn_skipn, firstn_skipn.
  - exists [], (_searchHighlights t). reflexivity.
Qed.

(** X4.  When no stored rectangle has its top row among the rows from the
    top of the viewport to its exclusive bottom, the result is empty, in
    whatever order the rectangles are stored. *)
Theorem GetSearchHighlights_none_visible (t : Terminal) :
  (forall rect, In rect (_searchHighlights t) ->
     top_within (Viewport_Top (_GetVisibleViewport t))
                (Viewport_BottomExclusive (_GetVisibleViewport t)) rect = false) ->
  fst (GetSearchHighlights t) = [].
Proof.
  intros Hnone.
  unfold GetSearchHighlights, GetSearchHighlights_body, std.vector_from_range.
  unfold std.lower_bound, std.upper_bound.
  match goal with
  | |- context [(?lo <=? ?hi)%nat] =>
      assert (Hle : (hi <= lo)%nat); [| set (lower := lo) in *; set (upper := hi) in *]
  end.
  { apply partition_loop_mono. intros e Hin He.
    specialize (Hnone e Hin). rewrite top_within_spec in Hnone.
    rewrite He, andb_true_r in Hnone. now apply negb_false_iff in Hnone. }
  destruct (lower <=? upper)%nat eqn:E; simpl; [| reflexivity].
  apply Nat.leb_le in E. replace (upper - lower)%nat with 0%nat by lia.
  reflexivity.
Qed.

(** X5.  When every stored rectangle has its top row among the rows from
    the top of the viewport to its exclusive bottom, the result is the
    whole stored sequence and nothing is logged, in whatever order the
    rectangles are stored. *)
Theorem GetSearchHighlights_all_visible (t : Terminal) :
  (forall rect, In rect (_searchHighlights t) ->
     top_within (Viewport_Top (_GetVisibleViewport t))
                (Viewport_BottomExclusive (_GetVisibleViewport t)) rect = true) ->
  GetSearchHighlights t = (_searchHighlights t, []).
Proof.
  intros Hall.
  unfold GetSearchHighlights, GetSearchHighlights_body.
  assert (Hlower : std.lower_bound (_searchHighlights t)
                     (Viewport_Top (_GetVisibleViewport t))
                     (fun rect value => til.top rect <? value) = 0%nat).
  { unfold std.lower_bound. apply partition_loop_spec; [| lia | simpl; lia].
    intros i e Hnth. specialize (Hall e (nth_error_In _ _ Hnth)).
    rewrite top_within_spec in Hall. apply andb_true_iff in Hall.
    destruct Hall as [Hall _]. now apply negb_true_iff in Hall. }
  assert (Hupper : std.upper_bound (_searchHighlights t)
                     (Viewport_BottomExclusive (_GetVisibleViewport t))
                     (fun value rect => value <? til.top rect)
                   = length (_searchHighlights t)).
  { unfold std.upper_bound. apply partition_loop_spec; [| lia | simpl; lia].
    intros i e Hnth. specialize (Hall e (nth_error_In _ _ Hnth)).
    rewrite top_within_spec in Hall. apply andb_true_iff in Hall.
    destruct Hall as [_ Hall]. rewrite Hall. symmetry. apply Nat.ltb_lt.
    apply nth_error_Some. congruence. }
  rewrite Hlower, Hupper. unfold std.vector_from_range. simpl.
  now rewrite Nat.sub_0_r, firstn_all.
Qed.

(** X6.  [SetSearchHighlights] only replaces the stored highlights: for
    every sequence, sorted or not, it raises nothing and leaves the scroll
    offset and the focused highlight as they were.  When the sequence given
    is sorted by top row and the top of the viewport is not below its
    exclusive bottom, the query that follows returns the rectangles of that
    sequence whose top row lies between the top of the viewport and its
    exclusive bottom. *)
Theorem SetSearchHighlights_then_GetSearchHighlights
        (t : Terminal) (highlights : list til.inclusive_rect) :
  let run := SetSearchHighlights highlights t in
  let T := Viewport_Top (_GetVisibleViewport (final run)) in
  let B := Viewport_BottomExclusive (_GetVisibleViewport (final run)) in
  run = (tt, set_searchHighlights highlights t, []) /\
  effects run = [] /\
  _scrollOffset (final run) = _scrollOffset t /\
  _searchHighlightFocused (final run) = _searchHighlightFocused t /\
  (sorted_by_top highlights ->
   T <= B ->
   GetSearchHighlights (final run) = (filter (top_within T B) highlights, [])).
Proof.
  intros run T B.
  repeat split.
  intros Hsorted Hview.
  unfold GetSearchHighlights, GetSearchHighlights_body.
  fold T. fold B.
  change (_searchHighlights (final run)) with highlights.
  rewrite (visible_range_sorted highlights T B Hsorted Hview). reflexivity.
Qed.

End HighlightQuery.

(** ** The viewport reconciler, continued *)

Section ReconcilerFrame.

Context {env : Collaborators}.

Lemma set_scrollOffset_same (t : Terminal) : set_scrollOffset (_scrollOffset t) t = t.
Proof. destruct t. reflexivity. Qed.

(** A run returns the scroll offset it leaves and touches no other member. *)
Lemma ScrollToPoints_final (t : Terminal) (coordStart coordEnd : til.point) :
  _ScrollToPoints coordStart coordEnd t
  = (returned (_ScrollToPoints coordStart coordEnd t),
     set_scrollOffset (returned (_ScrollToPoints coordStart coordEnd t)) t,
     effects (_ScrollToPoints coordStart coordEnd t)).
Proof.
  destruct (Z.lt_ge_cases (til.y coordStart) (_VisibleStartIndex t)) as [Ha | Ha].
  - rewrite (ScrollToPoints_above t coordStart coordEnd Ha). reflexivity.
  - destruct (Z.lt_ge_cases (_VisibleEndIndex t) (til.y coordEnd)) as [Hb | Hb].
    + rewrite (ScrollToPoints_below t coordStart coordEnd Ha Hb). reflexivity.
    + rewrite (ScrollToPoints_visible t coordStart coordEnd Ha Hb).
      unfold returned, effects. simpl. now rewrite set_scrollOffset_same.
Qed.

Lemma ScrollToPoints_keeps_nonneg (t : Terminal) (coordStart coordEnd : til.point) :
  0 <= _scrollOffset t ->
  _VisibleStartIndex t = ViewStartIndex t - _scrollOffset t ->
  0 <= returned (_ScrollToPoints coordStart coordEnd t).
Proof.
  intros Hoffset Hvisible.
  destruct (Z.lt_ge_cases (til.y coordStart) (_VisibleStartIndex t)) as [Ha | Ha].
  - rewrite (ScrollToPoints_above t coordStart coordEnd Ha).
    unfold returned. simpl. lia.
  - destruct (Z.lt_ge_cases (_VisibleEndIndex t) (til.y coordEnd)) as [Hb | Hb].
    + rewrite (ScrollToPoints_below t coordStart coordEnd Ha Hb).
      unfold returned. simpl. rewrite std_max_spec. lia.
    + rewrite (ScrollToPoints_visible t coordStart coordEnd Ha Hb).
      unfold returned. simpl. lia.
Qed.

(** X8.  Whenever the call scrolls and the start row is not below the top
    row of the unscrolled view, the new offset is the distance from the
    start row to that top row, in the branch for a range below the viewport
    as in the branch for a range above it. *)
Theorem ScrollToPoints_scrolls_start_to_top
        (t : Terminal) (coordStart coordEnd : til.point) :
  til.y coordStart < _VisibleStartIndex t \/ til.y coordEnd > _VisibleEndIndex t ->
  til.y coordStart <= ViewStartIndex t ->
  let run := _ScrollToPoints coordStart coordEnd t in
  returned run = ViewStartIndex t - til.y coordStart /\
  ViewStartIndex t - _scrollOffset (final run) = til.y coordStart /\
  effects run = [TriggerScroll; NotifyScrollEvent].
Proof.
  intros Hscroll Hstart run. unfold run.
  destruct (Z.lt_ge_cases (til.y coordStart) (_VisibleStartIndex t)) as [Ha | Ha].
  - rewrite (ScrollToPoints_above t coordStart coordEnd Ha).
    unfold returned, final, effects. simpl. repeat split; lia.
  - rewrite (ScrollToPoints_below t coordStart coordEnd Ha) by lia.
    unfold returned, final, effects. simpl. rewrite std_max_spec.
    repeat split; lia.
Qed.

(** X9.  When the range starts at or below the top row of the unscrolled
    view and ends below the visible bottom row, the scroll offset is reset
    to 0 and both notifications are raised: the difference, which is not
    positive there, is clamped. *)
Theorem ScrollToPoints_below_resets_offset
        (t : Terminal) (coordStart coordEnd : til.point) :
  _VisibleStartIndex t <= til.y coordStart ->
  ViewStartIndex t <= til.y coordStart ->
  til.y coordEnd > _VisibleEndIndex t ->
  _ScrollToPoints coordStart coordEnd t
  = (0, set_scrollOffset 0 t, [TriggerScroll; NotifyScrollEvent]).
Proof.
  intros Ha Hview Hb.
  rewrite (ScrollToPoints_below t coordStart coordEnd Ha) by lia.
  rewrite std_max_spec. replace (Z.max 0 (ViewStartIndex t - til.y coordStart)) with 0 by lia.
  reflexivity.
Qed.

(** ** The focused highlight *)

Lemma SetSearchHighlightFocused_run
      (t : Terminal) (front : til.inclusive_rect) (rest : list til.inclusive_rect) :
  let back := last (front :: rest) front in
  let scroll :=
    _ScrollToPoints (til.mkPoint (til.left front) (til.top front))
                    (til.mkPoint (til.right back) (til.bottom back)) t in
  SetSearchHighlightFocused (front :: rest) t
  = (tt, set_searchHighlightFocused (front :: rest) (final scroll), effects scroll).
Proof.
  intros back scroll.
  unfold SetSearchHighlightFocused, bind, ret, assign.
  fold back. fold scroll.
  destruct scroll as [[offset t1] raised]. unfold final, effects. simpl.
  rewrite !app_nil_r. reflexivity.
Qed.

(** X10.  Focusing a highlight that is already in view only stores it:
    when the top row of the first rectangle is not above the visible top
    row and the bottom row of the last rectangle is not below the visible
    bottom row, nothing is raised and the scroll offset stays. *)
Theorem SetSearchHighlightFocused_visible
        (t : Terminal) (front : til.inclusive_rect) (rest : list til.inclusive_rect) :
  _VisibleStartIndex t <= til.top front ->
  til.bottom (last (front :: rest) front) <= _VisibleEndIndex t ->
  SetSearchHighlightFocused (front :: rest) t
  = (tt, set_searchHighlightFocused (front :: rest) t, []).
Proof.
  intros Htop Hbottom.
  rewrite SetSearchHighlightFocused_run.
  rewrite ScrollToPoints_visible by assumption.
  reflexivity.
Qed.

(** X12.  When the visible top row is the top row of the unscrolled view
    minus the scroll offset, [SetSearchHighlightFocused] keeps the scroll
    offset from becoming negative, for every list. *)
Theorem SetSearchHighlightFocused_offset_nonneg
        (t : Terminal) (highlight : list til.inclusive_rect) :
  0 <= _scrollOffset t ->
  _VisibleStartIndex t = ViewStartIndex t - _scrollOffset t ->
  0 <= _scrollOffset (final (SetSearchHighlightFocused highlight t)).
Proof.
  intros Hoffset Hvisible. destruct highlight as [| front rest].
  - exact Hoffset.
  - rewrite SetSearchHighlightFocused_run.
    rewrite ScrollToPoints_final. unfold final. simpl.
    now apply ScrollToPoints_keeps_nonneg.
Qed.

End ReconcilerFrame.

(** ** The loops of the two list accessors *)

Section AccessorLoops.

Context {env : Collaborators}.

(** X13.  [GetPatternId] returns the id of every interval the tree query
    returned, in the order of that result and with repetitions kept; its
    result is empty exactly when the query result is.  This holds for every
    interval tree. *)
Theorem GetPatternId_one_id_per_interval (t : Terminal) (location : til.point) :
  let intervals :=
    findOverlapping (_patternIntervalTree t)
      (til.mkPoint (til.x location + 1) (til.y location)) location in
  GetPatternId t location = map value intervals /\
  length (GetPatternId t location) = length intervals /\
  (GetPatternId t location = [] <-> intervals = []).
Proof.
  intros intervals. unfold intervals. rewrite GetPatternId_map.
  split; [reflexivity |]. split; [apply length_map |].
  destruct (findOverlapping _ _ _); simpl; split; congruence.
Qed.

(** X14.  When the selection computation completes, [GetSelectionRects]
    returns one viewport for each of its line rectangles, in the same
    order, each made by [Viewport::FromInclusive], and logs nothing. *)
Theorem GetSelectionRects_one_viewport_per_line
        (t : Terminal) (lineRects : list til.inclusive_rect) :
  _GetSelectionRects t = std.Ok lineRects ->
  GetSelectionRects t = (map Viewport_FromInclusive lineRects, []) /\
  length (fst (GetSelectionRects t)) = length lineRects.
Proof.
  intros Hselection.
  unfold GetSelectionRects, GetSelectionRects_body. rewrite Hselection.
  rewrite fold_left_emplace_back. simpl. split; [reflexivity | apply length_map].
Qed.

End AccessorLoops.

(** ** Selecting a region *)

Section Selection.

Context {env : Collaborators} {sel : SelectionCollaborators}.

(** X15.  For a range that is already in view, [SelectNewRegion] does not
    scroll and raises no scroll notification of its own: it is the two
    selection setters, called on the two points with their columns kept and
    their rows lowered by the current scroll offset. *)
Theorem SelectNewRegion_visible (t : Terminal) (coordStart coordEnd : til.point) :
  _VisibleStartIndex t <= til.y coordStart ->
  til.y coordEnd <= _VisibleEndIndex t ->
  SelectNewRegion coordStart coordEnd t
  = bind (SetSelectionAnchor
            (til.mkPoint (til.x coordStart) (til.y coordStart - _scrollOffset t)))
         (fun _ =>
            SetSelectionEnd
              (til.mkPoint (til.x coordEnd) (til.y coordEnd - _scrollOffset t))
              SelectionExpansion_Char) t.
Proof.
  intros Hstart Hend.
  unfold SelectNewRegion. unfold bind at 1.
  rewrite (ScrollToPoints_visible t coordStart coordEnd Hstart Hend).
  match goal with
  | |- _ = ?r => destruct r as [[[] t2] e2]
  end.
  reflexivity.
Qed.

(** X16.  For a range that starts above the viewport, [SelectNewRegion]
    first scrolls, raising the scroll trigger and the scroll notification,
    and then calls the two selection setters in the scrolled terminal; both
    points keep their column and have their row lowered by the new scroll
    offset, the top row of the unscrolled view minus the start row. *)
Theorem SelectNewRegion_above (t : Terminal) (coordStart coordEnd : til.point) :
  til.y coordStart < _VisibleStartIndex t ->
  let offset := ViewStartIndex t - til.y coordStart in
  let select :=
    bind (SetSelectionAnchor
            (til.mkPoint (til.x coordStart) (til.y coordStart - offset)))
         (fun _ =>
            SetSelectionEnd
              (til.mkPoint (til.x coordEnd) (til.y coordEnd - offset))
              SelectionExpansion_Char)
         (set_scrollOffset offset t) in
  SelectNewRegion coordStart coordEnd t
  = (tt, final select, [TriggerScroll; NotifyScrollEvent] ++ effects select).
Proof.
  intros Habove offset select.
  unfold SelectNewRegion. unfold bind at 1.
  rewrite (ScrollToPoints_above t coordStart coordEnd Habove).
  fold offset. fold select.
  destruct select as [[[] t2] e2]. reflexivity.
Qed.

End Selection.

(** ** The further properties on concrete terminals *)

Lemma sorted_example :
  sorted_by_top [row_rect 90; row_rect 105; row_rect 124; row_rect 130].
Proof.
  unfold sorted_by_top.
  repeat (constructor; try (unfold key_le; simpl; lia)).
Qed.

(** Rows 100 to 123 visible, highlights on the rows 90, 105, 124 and 130:
    the rows 105 and 124 are returned. *)
Lemma GetSearchHighlights_sorted_witness :
  @GetSearchHighlights env_ok terminal_highlights = ([row_rect 105; row_rect 124], []).
Proof.
  apply (@GetSearchHighlights_sorted env_ok terminal_highlights).
  - exact sorted_example.
  - vm_compute. discriminate.
Defined.

Lemma GetSearchHighlights_completes_witness :
  exists result, @GetSearchHighlights env_ok terminal_offscreen = (result, []).
Proof.
  destruct (@GetSearchHighlights_completes env_ok terminal_offscreen)
    as (result & _ & Hrun).
  - vm_compute. discriminate.
  - exists result. exact Hrun.
Defined.

Lemma GetSearchHighlights_none_visible_witness :
  fst (@GetSearchHighlights env_ok terminal_offscreen) = [].
Proof.
  apply (@GetSearchHighlights_none_visible env_ok terminal_offscreen).
  intros rect [<- | [<- | [<- | []]]]; reflexivity.
Defined.

Lemma GetSearchHighlights_all_visible_witness :
  @GetSearchHighlights env_ok terminal_onscreen
  = ([row_rect 110; row_rect 105; row_rect 120], []).
Proof.
  apply (@GetSearchHighlights_all_visible env_ok terminal_onscreen).
  intros rect [<- | [<- | [<- | []]]]; reflexivity.
Defined.

Lemma SetSearchHighlights_then_GetSearchHighlights_witness :
  @GetSearchHighlights env_ok
    (final (@SetSearchHighlights env_ok
              [row_rect 90; row_rect 105; row_rect 124; row_rect 130]
              terminal_onscreen))
  = ([row_rect 105; row_rect 124], []).
Proof.
  destruct (@SetSearchHighlights_then_GetSearchHighlights env_ok terminal_onscreen
              [row_rect 90; row_rect 105; row_rect 124; row_rect 130])
    as (_ & _ & _ & _ & Hquery).
  apply Hquery.
  - exact sorted_example.
  - vm_compute. discriminate.
Defined.

(** Rows 30 to 53 visible, a range from row 45 to row 55: row 45 is five
    rows above the unscrolled top row 50. *)
Lemma ScrollToPoints_scrolls_start_to_top_witness :
  returned (@_ScrollToPoints env_ok (til.mkPoint 0 45) (til.mkPoint 5 55)
                             terminal_scrolled) = 5.
Proof.
  destruct (@ScrollToPoints_scrolls_start_to_top env_ok terminal_scrolled
              (til.mkPoint 0 45) (til.mkPoint 5 55)) as (Hret & _).
  - right. vm_compute. reflexivity.
  - vm_compute. discriminate.
  - exact Hret.
Defined.

(** Rows 30 to 53 visible, a range from row 52 to row 60, inside the
    unscrolled view: the offset goes back to 0. *)
Lemma ScrollToPoints_below_resets_offset_witness :
  returned (@_ScrollToPoints env_ok (til.mkPoint 0 52) (til.mkPoint 5 60)
                             terminal_scrolled) = 0.
Proof.
  rewrite (@ScrollToPoints_below_resets_offset env_ok terminal_scrolled
             (til.mkPoint 0 52) (til.mkPoint 5 60)).
  - reflexivity.
  - vm_compute. discriminate.
  - vm_compute. discriminate.
  - vm_compute. reflexivity.
Defined.

Lemma SetSearchHighlightFocused_visible_witness :
  effects (@SetSearchHighlightFocused env_ok [row_rect 55; row_rect 56]
                                      terminal_unscrolled) = [].
Proof.
  rewrite (@SetSearchHighlightFocused_visible env_ok terminal_unscrolled
             (row_rect 55) [row_rect 56]).
  - reflexivity.
  - vm_compute. discriminate.
  - vm_compute. discriminate.
Defined.

Lemma SetSearchHighlightFocused_offset_nonneg_witness :
  0 <= _scrollOffset (final (@SetSearchHighlightFocused env_ok [row_rect 10]
                                                        terminal_scrolled)).
Proof.
  apply (@SetSearchHighlightFocused_offset_nonneg env_ok terminal_scrolled
           [row_rect 10]).
  - vm_compute. discriminate.
  - reflexivity.
Defined.

Lemma GetSelectionRects_one_viewport_per_line_witness :
  @GetSelectionRects env_two_lines terminal_two_lines
  = ([row_rect 3; row_rect 4], []).
Proof.
  apply (proj1 (@GetSelectionRects_one_viewport_per_line env_two_lines
                  terminal_two_lines [row_rect 3; row_rect 4] eq_refl)).
Defined.

(** Rows 50 to 73 visible and a range from row 55 to row 60: the selection
    goes from row 55 to row 60 and nothing is raised. *)
Lemma SelectNewRegion_visible_witness :
  @SelectNewRegion selection_env selection_setters
    (til.mkPoint 2 55) (til.mkPoint 7 60) (terminal_selecting 0)
  = (tt,
     store_end (til.mkPoint 7 60)
               (store_anchor (til.mkPoint 2 55) (terminal_selecting 0)),
     []).
Proof.
  rewrite (@SelectNewRegion_visible selection_env selection_setters
             (terminal_selecting 0) (til.mkPoint 2 55) (til.mkPoint 7 60)).
  - reflexivity.
  - vm_compute. discriminate.
  - vm_compute. discriminate.
Defined.

(** Rows 50 to 73 visible and a range from row 40 to row 60: the offset
    becomes 10 and the selection goes from row 30 to row 50. *)
Lemma SelectNewRegion_above_witness :
  @SelectNewRegion selection_env selection_setters
    (til.mkPoint 2 40) (til.mkPoint 7 60) (terminal_selecting 0)
  = (tt,
     store_end (til.mkPoint 7 50)
               (store_anchor (til.mkPoint 2 30) (terminal_selecting 10)),
     [TriggerScroll; NotifyScrollEvent]).
Proof.
  rewrite (@SelectNewRegion_above selection_env selection_setters
             (terminal_selecting 0) (til.mkPoint 2 40) (til.mkPoint 7 60)).
  - reflexivity.
  - vm_compute. reflexivity.
Defined.

(** ** What a call achieves *)

Section ReconcilerPurpose.

Context {env : Collaborators}.

(** The scroll offset a call leaves, by the place of the start row. *)
Lemma ScrollToPoints_offset_cases (t : Terminal) (coordStart coordEnd : til.point) :
  0 <= _scrollOffset t ->
  _VisibleStartIndex t = ViewStartIndex t - _scrollOffset t ->
  let run := _ScrollToPoints coordStart coordEnd t in
  (run = (_scrollOffset t, t, []) /\
   _VisibleStartIndex t <= til.y coordStart /\
   til.y coordEnd <= _VisibleEndIndex t) \/
  (final run = set_scrollOffset (returned run) t /\
   returned run = Z.max 0 (ViewStartIndex t - til.y coordStart)).
Proof.
  intros Hoffset Hvisible run. unfold run.
  destruct (Z.lt_ge_cases (til.y coordStart) (_VisibleStartIndex t)) as [Ha | Ha].
  - right. rewrite (ScrollToPoints_above t coordStart coordEnd Ha).
    unfold final, returned. simpl. split; [reflexivity | lia].
  - destruct (Z.lt_ge_cases (_VisibleEndIndex t) (til.y coordEnd)) as [Hb | Hb].
    + right. rewrite (ScrollToPoints_below t coordStart coordEnd Ha Hb).
      unfold final, returned. simpl. split; [reflexivity | apply std_max_spec].
    + left. rewrite (ScrollToPoints_visible t coordStart coordEnd Ha Hb).
      repeat split; assumption.
Qed.

(** X17.  Let the visible top row be the top row of the unscrolled view
    minus the scroll offset, before and after a call, with the scroll
    offset not negative before it and the unscrolled view unmoved by it.
    Then a second call with the same range returns the offset of the first
    and leaves the terminal of the first: the offset is settled after one
    call, also for a range too tall to fit the viewport. *)
Theorem ScrollToPoints_offset_idempotent
        (t : Terminal) (coordStart coordEnd : til.point) :
  let first := _ScrollToPoints coordStart coordEnd t in
  let second := _ScrollToPoints coordStart coordEnd (final first) in
  0 <= _scrollOffset t ->
  _VisibleStartIndex t = ViewStartIndex t - _scrollOffset t ->
  ViewStartIndex (final first) = ViewStartIndex t ->
  _VisibleStartIndex (final first)
    = ViewStartIndex (final first) - _scrollOffset (final first) ->
  returned second = returned first /\ final second = final first.
Proof.
  intros first second Hoffset Hvisible Hview Hvisible'.
  destruct (ScrollToPoints_offset_cases t coordStart coordEnd Hoffset Hvisible)
    as [(Hrun & _ & _) | (Hfinal & Hret)]; fold first in Hrun || fold first in Hfinal, Hret.
  - unfold second. rewrite Hrun. unfold final. simpl.
    fold first. rewrite Hrun. split; reflexivity.
  - assert (Hoff' : _scrollOffset (final first) = returned first)
      by (rewrite Hfinal; reflexivity).
    assert (Hstart : _VisibleStartIndex (final first) <= til.y coordStart)
      by (rewrite Hvisible', Hview, Hoff', Hret; lia).
    unfold second.
    destruct (Z.lt_ge_cases (_VisibleEndIndex (final first)) (til.y coordEnd))
      as [Hb | Hb].
    + rewrite (ScrollToPoints_below (final first) coordStart coordEnd Hstart Hb).
      assert (Hsame : std.max 0 (ViewStartIndex (final first) - til.y coordStart)
                      = returned first)
        by (rewrite std_max_spec, Hview; symmetry; exact Hret).
      rewrite Hsame. change (returned (?a, ?b, ?c)) with a.
      change (final (?a, ?b, ?c)) with b.
      split; [reflexivity |].
      rewrite Hfinal. reflexivity.
    + rewrite (ScrollToPoints_visible (final first) coordStart coordEnd Hstart Hb).
      split; [exact Hoff' | reflexivity].
Qed.

(** X18.  With the visible top row determined as in X17 and a visible
    viewport of [height + 1] rows after the call: a range that spans at
    most [height] rows and does not end below the bottom row of the
    unscrolled view is in view after the call, from its start row to its
    end row, so that calling again raises nothing and changes nothing. *)
Theorem ScrollToPoints_brings_range_into_view
        (t : Terminal) (coordStart coordEnd : til.point) (height : CoordType) :
  let first := _ScrollToPoints coordStart coordEnd t in
  0 <= _scrollOffset t ->
  _VisibleStartIndex t = ViewStartIndex t - _scrollOffset t ->
  ViewStartIndex (final first) = ViewStartIndex t ->
  _VisibleStartIndex (final first)
    = ViewStartIndex (final first) - _scrollOffset (final first) ->
  _VisibleEndIndex (final first) = _VisibleStartIndex (final first) + height ->
  til.y coordEnd - til.y coordStart <= height ->
  til.y coordEnd <= ViewStartIndex t + height ->
  _VisibleStartIndex (final first) <= til.y coordStart /\
  til.y coordEnd <= _VisibleEndIndex (final first) /\
  _ScrollToPoints coordStart coordEnd (final first)
  = (_scrollOffset (final first), final first, []).
Proof.
  intros first Hoffset Hvisible Hview Hvisible' Hend' Hspan Hlive.
  assert (Hin : _VisibleStartIndex (final first) <= til.y coordStart /\
                til.y coordEnd <= _VisibleEndIndex (final first)).
  { destruct (ScrollToPoints_offset_cases t coordStart coordEnd Hoffset Hvisible)
      as [(Hrun & Hs & He) | (Hfinal & Hret)];
      fold first in Hrun || fold first in Hfinal, Hret.
    - rewrite Hrun. unfold final. simpl. split; assumption.
    - assert (Hoff' : _scrollOffset (final first) = returned first)
        by (rewrite Hfinal; reflexivity).
      rewrite Hend', Hvisible', Hview, Hoff', Hret. lia. }
  destruct Hin as [Hs He]. repeat split; try assumption.
  apply ScrollToPoints_visible; assumption.
Qed.

End ReconcilerPurpose.

(** Rows 50 to 73 visible, a range from row 40 to row 90, taller than the
    viewport: the second call returns the offset 10 of the first. *)
Lemma ScrollToPoints_offset_idempotent_witness :
  returned (@_ScrollToPoints env_ok (til.mkPoint 0 40) (til.mkPoint 5 90)
              (final (@_ScrollToPoints env_ok (til.mkPoint 0 40) (til.mkPoint 5 90)
                                       terminal_unscrolled)))
  = 10.
Proof.
  destruct (@ScrollToPoints_offset_idempotent env_ok terminal_unscrolled
              (til.mkPoint 0 40) (til.mkPoint 5 90)) as (Hret & _).
  - vm_compute. discriminate.
  - reflexivity.
  - reflexivity.
  - reflexivity.
  - exact Hret.
Defined.

(** Rows 50 to 73 visible, a range from row 40 to row 60: after the call
    the rows 40 to 63 are visible and the second call does nothing. *)
Lemma ScrollToPoints_brings_range_into_view_witness :
  @_ScrollToPoints env_ok (til.mkPoint 0 40) (til.mkPoint 5 60)
    (example_terminal 50 73 10 [] [])
  = (10, example_terminal 50 73 10 [] [], []).
Proof.
  destruct (@ScrollToPoints_brings_range_into_view env_ok terminal_unscrolled
              (til.mkPoint 0 40) (til.mkPoint 5 60) 23) as (_ & _ & Hagain).
  - vm_compute. discriminate.
  - reflexivity.
  - reflexivity.
  - reflexivity.
  - reflexivity.
  - vm_compute. discriminate.
  - vm_compute. discriminate.
  - exact Hagain.
Defined.

(** ** The focused highlight and the viewport *)

Section FocusedHighlightInView.

Context {env : Collaborators}.

(** C7 (as amended).  With a list that is not empty the call runs
    [_ScrollToPoints] on the top-left point of the first rectangle and the
    bottom-right point of the last one, raises what that run raises, and
    stores the list in the terminal that run leaves, whose scroll offset is
    the one that run returned.  That brings the range into view when the
    visible viewport is the unscrolled view moved up by the scroll offset,
    [height + 1] rows tall before and after the call, the scroll offset is
    not negative before it, the range spans at most [height] rows and does
    not end below the bottom row of the unscrolled view: the top row of the
    first rectangle is then not above the visible top row and the bottom
    row of the last one not below the visible bottom row.  With the empty
    list the call stores the empty list, raises nothing and leaves the
    scroll offset as it was. *)
Theorem SetSearchHighlightFocused_brings_into_view
        (t : Terminal) (front : til.inclusive_rect) (rest : list til.inclusive_rect)
        (height : CoordType) :
  let highlight := front :: rest in
  let back := last highlight front in
  let scroll :=
    _ScrollToPoints (til.mkPoint (til.left front) (til.top front))
                    (til.mkPoint (til.right back) (til.bottom back)) t in
  let run := SetSearchHighlightFocused highlight t in
  run = (tt, set_searchHighlightFocused highlight (final scroll), effects scroll) /\
  _searchHighlightFocused (final run) = highlight /\
  _scrollOffset (final run) = returned scroll /\
  (0 <= _scrollOffset t ->
   _VisibleStartIndex t = ViewStartIndex t - _scrollOffset t ->
   _VisibleEndIndex t = _VisibleStartIndex t + height ->
   ViewStartIndex (final run) = ViewStartIndex t ->
   _VisibleStartIndex (final run)
     = ViewStartIndex (final run) - _scrollOffset (final run) ->
   _VisibleEndIndex (final run) = _VisibleStartIndex (final run) + height ->
   til.bottom back - til.top front <= height ->
   til.bottom back <= ViewStartIndex t + height ->
   _VisibleStartIndex (final run) <= til.top front /\
   til.bottom back <= _VisibleEndIndex (final run)) /\
  SetSearchHighlightFocused [] t = (tt, set_searchHighlightFocused [] t, []) /\
  _searchHighlightFocused (final (SetSearchHighlightFocused [] t)) = [] /\
  _scrollOffset (final (SetSearchHighlightFocused [] t)) = _scrollOffset t.
Proof.
  intros highlight back scroll run.
  assert (Hrun : run = (tt, set_searchHighlightFocused highlight (final scroll),
                        effects scroll))
    by apply SetSearchHighlightFocused_run.
  assert (Hoff : _scrollOffset (final run) = returned scroll).
  { rewrite Hrun. unfold scroll. rewrite ScrollToPoints_final. reflexivity. }
  split; [exact Hrun |].
  split; [rewrite Hrun; reflexivity |].
  split; [exact Hoff |].
  split; [| repeat split].
  intros Hoffset Hvisible Hend Hview Hvisible' Hend' Hspan Hlive.
  rewrite Hend', Hvisible', Hview, Hoff.
  destruct (ScrollToPoints_offset_cases t
              (til.mkPoint (til.left front) (til.top front))
              (til.mkPoint (til.right back) (til.bottom back)) Hoffset Hvisible)
    as [(Hscroll & Hs & He) | (_ & Hret)]; fold scroll in Hscroll || fold scroll in Hret.
  - rewrite Hscroll. unfold returned. simpl in *. lia.
  - rewrite Hret. simpl in *. lia.
Qed.

End FocusedHighlightInView.

(** C7 (the claim as stated fails).  In a pane showing the two rows 50 and
    51, focusing a match on the rows 40 to 42 scrolls back by 10 rows: the
    rows 40 and 41 are then visible and row 42, where the match ends, is
    below the visible bottom row.  The start row takes precedence; a range
    taller than the viewport is not brought into view. *)
Lemma SetSearchHighlightFocused_tall_range_not_in_view :
  _scrollOffset (final (@SetSearchHighlightFocused env_ok highlight_three_lines
                                                   terminal_two_rows)) = 10 /\
  ~ (@_VisibleStartIndex env_ok
       (final (@SetSearchHighlightFocused env_ok highlight_three_lines
                                          terminal_two_rows))
     <= til.top (row_rect 40) /\
     til.bottom (row_rect 42)
     <= @_VisibleEndIndex env_ok
          (final (@SetSearchHighlightFocused env_ok highlight_three_lines
                                             terminal_two_rows))).
Proof.
  split; [reflexivity |].
  intros [_ Hbottom]. vm_compute in Hbottom. apply Hbottom. reflexivity.
Qed.

(** Rows 50 to 73 visible, a match on the rows 40 and 41: after the call
    the rows 40 to 63 are visible. *)
Lemma SetSearchHighlightFocused_brings_into_view_witness :
  @_VisibleStartIndex env_ok
    (final (@SetSearchHighlightFocused env_ok highlight_two_lines terminal_unscrolled))
  <= 40 /\
  41 <= @_VisibleEndIndex env_ok
          (final (@SetSearchHighlightFocused env_ok highlight_two_lines
                                             terminal_unscrolled)).
Proof.
  destruct (@SetSearchHighlightFocused_brings_into_view env_ok terminal_unscrolled
              (row_rect 40) [row_rect 41] 23) as (_ & _ & _ & Hview & _).
  apply Hview.
  - vm_compute. discriminate.
  - reflexivity.
  - reflexivity.
  - reflexivity.
  - reflexivity.
  - reflexivity.
  - vm_compute. discriminate.
  - vm_compute. discriminate.
Defined.
